(** * telegrambot.py: a homework-status notifier

    A shallow embedding of [src/telegrambot.py] and the properties of its
    validator, interpreter, API client, notifier and poll loop.

    The program talks to three collaborators that are not part of the
    repository: the process environment and clock, the HTTP library
    ([requests]) and the messaging library ([telegram]).  Their answers are
    the fields of a [World]; everything the program does to them is
    recorded, in order, in a trace of [event]s. *)

From Stdlib Require Import String Ascii List ZArith QArith Qround Bool Lia.
From Stdlib Require Import DecimalString Lqa.
Import ListNotations.

#[local] Open Scope string_scope.
#[local] Open Scope Z_scope.

(** ** Python values *)

(** The values a decoded JSON body is made of ([json.loads]): [None],
    booleans, integers, floats (finite ones, as rationals), strings, lists
    and dicts.  A dict is kept as an association list in insertion order and
    is read by its first binding of a key. *)
#[warnings="-register-all"]
Inductive pyval : Type :=
| PyNone
| PyBool (b : bool)
| PyInt (n : Z)
| PyFloat (q : Q)
| PyStr (s : string)
| PyList (l : list pyval)
| PyDict (d : list (string * pyval)).

(** [bool(v)]: the truth value Python gives an object in [if v:] and
    [any(...)]. *)
Definition truthy (v : pyval) : bool :=
  match v with
  | PyNone => false
  | PyBool b => b
  | PyInt n => negb (n =? 0)
  | PyFloat q => negb (Qeq_bool q 0)
  | PyStr s => negb (String.eqb s EmptyString)
  | PyList l => match l with [] => false | _ :: _ => true end
  | PyDict d => match d with [] => false | _ :: _ => true end
  end.

(** [type(v).__name__] *)
Definition type_name (v : pyval) : string :=
  match v with
  | PyNone => "NoneType"
  | PyBool _ => "bool"
  | PyInt _ => "int"
  | PyFloat _ => "float"
  | PyStr _ => "str"
  | PyList _ => "list"
  | PyDict _ => "dict"
  end.

Definition isinstance_dict (v : pyval) : bool :=
  match v with PyDict _ => true | _ => false end.

Definition isinstance_list (v : pyval) : bool :=
  match v with PyList _ => true | _ => false end.

Definition is_None (v : pyval) : bool :=
  match v with PyNone => true | _ => false end.


Fixpoint assoc {A : Type} (k : string) (d : list (string * A)) : option A :=
  match d with
  | [] => None
  | (k', v) :: d' => if String.eqb k k' then Some v else assoc k d'
  end.

(** ** Exceptions *)

(** The exception classes the program raises, catches or can be handed by
    its libraries. *)
Inductive exn_class : Type :=
| SystemExit
| Exception
| TypeError
| KeyError
| IndexError
| AttributeError
| SystemError
| JSONDecodeError
| RequestException
| TelegramError.

Definition exn_class_eqb (a b : exn_class) : bool :=
  match a, b with
  | SystemExit, SystemExit | Exception, Exception | TypeError, TypeError
  | KeyError, KeyError | IndexError, IndexError
  | AttributeError, AttributeError | SystemError, SystemError
  | JSONDecodeError, JSONDecodeError
  | RequestException, RequestException | TelegramError, TelegramError => true
  | _, _ => false
  end.

(** [issubclass c base]: every class is its own subclass, and all of them
    but [SystemExit] derive from [Exception]. *)
Definition issubclass (c base : exn_class) : bool :=
  exn_class_eqb c base ||
  match base, c with
  | Exception, SystemExit => false
  | Exception, _ => true
  | _, _ => false
  end.

(** A raised exception: its class and the text [str(error)] gives. *)
Record exn : Type := mkExn { exn_class_of : exn_class; exn_str : string }.

Definition squote : string := String "039" EmptyString.
Definition dquote : string := String "034" EmptyString.

(** [KeyError(msg)] prints as [repr(msg)].  The messages of this program
    hold no apostrophe, backslash or control character, so their [repr] is
    the message between apostrophes. *)
Definition new_KeyError (msg : string) : exn :=
  mkExn KeyError (squote ++ msg ++ squote).

Definition new (c : exn_class) (msg : string) : exn := mkExn c msg.

(** The outcome of a call: a value or a raised exception. *)
Inductive result (A : Type) : Type :=
| Ok (a : A)
| Raise (e : exn).
Arguments Ok {A} a.
Arguments Raise {A} e.

Definition is_Ok {A : Type} (r : result A) : bool :=
  match r with Ok _ => true | Raise _ => false end.

Definition raised_class {A : Type} (r : result A) : option exn_class :=
  match r with Ok _ => None | Raise e => Some (exn_class_of e) end.

Definition rbind {A B : Type} (r : result A) (k : A -> result B) : result B :=
  match r with Ok a => k a | Raise e => Raise e end.

Notation "x <-- r ;;; k" := (rbind r (fun x => k))
  (at level 100, r at next level, right associativity).

(** [key in d] for a dict [d] *)
Definition contains (key : string) (v : pyval) : bool :=
  match v with
  | PyDict d => match assoc key d with Some _ => true | None => false end
  | _ => false
  end.

(** [v[key]]: subscripting by a string *)
Definition getitem (v : pyval) (key : string) : result pyval :=
  match v with
  | PyDict d =>
      match assoc key d with
      | Some x => Ok x
      | None => Raise (new_KeyError key)
      end
  | PyStr _ => Raise (new TypeError "string indices must be integers")
  | PyList _ => Raise (new TypeError "list indices must be integers or slices, not str")
  | _ => Raise (new TypeError
                  (squote ++ type_name v ++ squote ++ " object is not subscriptable"))
  end.

(** [v[0]] for a list [v] *)
Definition getitem0 (v : pyval) : result pyval :=
  match v with
  | PyList (x :: _) => Ok x
  | PyList [] => Raise (new IndexError "list index out of range")
  | _ => Raise (new TypeError
                  (squote ++ type_name v ++ squote ++ " object is not subscriptable"))
  end.

(** [v.get(key)]: only a dict has the method; a missing key gives [None]. *)
Definition get (v : pyval) (key : string) : result pyval :=
  match v with
  | PyDict d =>
      match assoc key d with
      | Some x => Ok x
      | None => Ok PyNone
      end
  | _ => Raise (new AttributeError
                  (squote ++ type_name v ++ squote ++
                   " object has no attribute 'get'"))
  end.

(** ** Constants *)

Definition RETRY_PERIOD : Z := 600.

Definition ENDPOINT : string :=
  "https://practicum.yandex.ru/api/user_api/homework_statuses/".

Definition HOMEWORK_VERDICTS : list (string * string) :=
  [ ("approved", "Работа проверена: ревьюеру всё понравилось. Ура!");
    ("reviewing", "Работа взята на проверку ревьюером.");
    ("rejected", "Работа проверена: у ревьюера есть замечания.") ].

(** [status in HOMEWORK_VERDICTS] and [HOMEWORK_VERDICTS.get(status)]: the
    key is hashed first, which a list or a dict refuses with a [TypeError];
    a hashable value that is not a string equals none of the keys. *)
Definition verdict_of (status : pyval) : result (option string) :=
  match status with
  | PyStr s => Ok (assoc s HOMEWORK_VERDICTS)
  | PyList _ | PyDict _ =>
      Raise (new TypeError
               ("unhashable type: " ++ squote ++ type_name status ++ squote))
  | _ => Ok None
  end.

(** ** The Response Validator *)

Definition check_response (response : pyval) : result pyval :=
  if negb (isinstance_dict response) then
    Raise (new TypeError "Полученный ответ не является словарем.")
  else if negb (contains "homeworks" response) then
    Raise (new_KeyError "В ответе отсутствует информация о домашних заданиях.")
  else if negb (contains "current_date" response) then
    Raise (new_KeyError "В ответе отсутствует информация о текущей дате.")
  else
    homeworks <-- getitem response "homeworks" ;;;
    if negb (isinstance_list homeworks) then
      Raise (new TypeError "Значение ключа homeworks не является списком.")
    else if negb (truthy homeworks) then
      Ok PyNone
    else
      getitem0 homeworks.

(** ** The world outside the program *)

(** What [requests.get] hands back: the status code, the text of the
    [HTTPError] that [raise_for_status()] would raise for it, and what
    [.json()] does (return the decoded body or raise). *)
Record Response : Type := mkResponse {
  status_code : Z;
  http_error : string;
  json : result pyval
}.

(** The answers of the collaborators.  Calls of one kind are numbered from
    0 in the order the program makes them.
    - [os_getenv name]: the environment after [load_dotenv()];
    - [repr_of v]: [str(v)] for a float, a list or a dict;
    - [time_time k]: what the k-th reading of the clock returns;
    - [requests_get k from_date]: the k-th GET, return or raise;
    - [telegram_Bot token]: the exception [telegram.Bot(token=...)] raises,
      if any;
    - [bot_send_message k chat_id text]: the exception the k-th send
      raises, if any. *)
Record World : Type := mkWorld {
  os_getenv : string -> option string;
  repr_of : pyval -> string;
  time_time : nat -> Q;
  requests_get : nat -> Z -> result Response;
  telegram_Bot : pyval -> option exn;
  bot_send_message : nat -> pyval -> string -> option exn
}.

Inductive level : Type := DEBUG | ERROR | CRITICAL.

(** What the program does to the outside, in order. *)
Inductive event : Type :=
| Log (lvl : level) (msg : string)
| Get (url : string) (authorization : string) (from_date : Z)
| SendMessage (chat_id : pyval) (text : string)
| Sleep (secs : Z).

(** How many clock readings, GETs and sends were made so far, and the
    trace, oldest event first. *)
Record state : Type := mkState {
  reads : nat;
  gets : nat;
  sends : nat;
  trace : list event
}.

Definition initial : state := mkState 0 0 0 [].

(** A computation with effects: from a state to an outcome and a state. *)
Definition M (A : Type) : Type := state -> result A * state.

Definition ret {A : Type} (a : A) : M A := fun s => (Ok a, s).

Definition raise {A : Type} (e : exn) : M A := fun s => (Raise e, s).

Definition bind {A B : Type} (m : M A) (k : A -> M B) : M B :=
  fun s =>
    match m s with
    | (Ok a, s') => k a s'
    | (Raise e, s') => (Raise e, s')
    end.

Definition lift {A : Type} (r : result A) : M A := fun s => (r, s).

Declare Scope prog_scope.
Delimit Scope prog_scope with prog.
Notation "x <- m ;; k" := (bind m (fun x => k))
  (at level 100, m at next level, right associativity) : prog_scope.
Notation "m ;; k" := (bind m (fun _ => k))
  (at level 100, right associativity) : prog_scope.
#[local] Open Scope prog_scope.

(** [try: body except c as error: handler error] *)
Definition try_except {A : Type} (body : M A) (c : exn_class)
    (handler : exn -> M A) : M A :=
  fun s =>
    match body s with
    | (Ok a, s') => (Ok a, s')
    | (Raise e, s') =>
        if issubclass (exn_class_of e) c then handler e s' else (Raise e, s')
    end.

(** [try: body finally: final]: [final] runs whatever [body] did; the
    outcome is that of [body] unless [final] itself raises. *)
Definition try_finally {A : Type} (body : M A) (final : M unit) : M A :=
  fun s =>
    match body s with
    | (r, s') =>
        match final s' with
        | (Ok _, s'') => (r, s'')
        | (Raise e, s'') => (Raise e, s'')
        end
    end.

Definition emit (ev : event) : M unit :=
  fun s => (Ok tt, mkState (reads s) (gets s) (sends s) (trace s ++ [ev])).

Definition logger_debug (msg : string) : M unit := emit (Log DEBUG msg).
Definition logger_error (msg : string) : M unit := emit (Log ERROR msg).
Definition logger_critical (msg : string) : M unit := emit (Log CRITICAL msg).

Definition time_sleep (secs : Z) : M unit := emit (Sleep secs).

(** [exit()] raises [SystemExit(None)], whose text is [None]. *)
Definition exit {A : Type} : M A := raise (new SystemExit "None").

(** [round(x)] of a float: to the nearest integer, a tie to the even one. *)
Definition py_round (x : Q) : Z :=
  let f := Qfloor x in
  match Qcompare (x - inject_Z f) (1 # 2) with
  | Lt => f
  | Gt => f + 1
  | Eq => if Z.even f then f else f + 1
  end.

Definition str_of_Z (n : Z) : string := NilZero.string_of_int (Z.to_int n).

Definition any (l : list pyval) : bool := existsb truthy l.

(** [response.raise_for_status()] raises an [HTTPError], a
    [RequestException], for a status from 400 to 599. *)
Definition raise_for_status (r : Response) : M unit :=
  if (400 <=? status_code r) && (status_code r <? 600)
  then raise (new RequestException (http_error r))
  else ret tt.

(** [JSONDecodeError(msg)]: the constructor of [json.JSONDecodeError] has
    three required parameters, [msg], [doc] and [pos]; called with [msg]
    alone it raises a [TypeError] and builds no exception object. *)
Definition JSONDecodeError_1 (msg : string) : M exn :=
  raise (new TypeError
    "JSONDecodeError.__init__() missing 2 required positional arguments: 'doc' and 'pos'").

(** ** The program *)

Record Bot : Type := mkBot { token : pyval }.

Section Program.

Variable W : World.

(** [os.getenv(name)] *)
Definition getenv (name : string) : pyval :=
  match os_getenv W name with
  | Some s => PyStr s
  | None => PyNone
  end.

Definition PRACTICUM_TOKEN : pyval := getenv "PRACTICUM_TOKEN".
Definition TELEGRAM_TOKEN : pyval := getenv "TELEGRAM_TOKEN".
Definition TELEGRAM_CHAT_ID : pyval := getenv "CHAT_ID".

(** [str(v)], as an f-string field [{v}] renders it. *)
Definition str (v : pyval) : string :=
  match v with
  | PyStr s => s
  | PyNone => "None"
  | PyBool true => "True"
  | PyBool false => "False"
  | PyInt n => str_of_Z n
  | _ => repr_of W v
  end.

(** The value of the [Authorization] entry of [HEADERS]. *)
Definition HEADERS : string := "OAuth " ++ str PRACTICUM_TOKEN.

(** [time.time()] *)
Definition time : M Q :=
  fun s =>
    (Ok (time_time W (reads s)),
     mkState (S (reads s)) (gets s) (sends s) (trace s)).

(** [requests.get(ENDPOINT, headers=HEADERS, params={'from_date': n})] *)
Definition requests_get_endpoint (from_date : Z) : M Response :=
  fun s =>
    (requests_get W (gets s) from_date,
     mkState (reads s) (S (gets s)) (sends s)
             (trace s ++ [Get ENDPOINT HEADERS from_date])).

(** [bot.send_message(chat_id, text)] *)
Definition Bot_send_message (bot : Bot) (chat_id : pyval) (text : string)
    : M unit :=
  fun s =>
    (match bot_send_message W (sends s) chat_id text with
     | None => Ok tt
     | Some e => Raise e
     end,
     mkState (reads s) (gets s) (S (sends s))
             (trace s ++ [SendMessage chat_id text])).

(** [telegram.Bot(token=tok)] *)
Definition new_Bot (tok : pyval) : M Bot :=
  match telegram_Bot W tok with
  | None => ret (mkBot tok)
  | Some e => raise e
  end.

Definition check_tokens : M bool :=
  if negb (any [PRACTICUM_TOKEN; TELEGRAM_TOKEN; TELEGRAM_CHAT_ID]) then
    logger_critical "Отсутвует переменная окружения." ;;
    ret false
  else ret true.

Definition send_message (bot : Bot) (message : string) : M unit :=
  try_except
    (Bot_send_message bot TELEGRAM_CHAT_ID message ;;
     logger_debug "Telegram бот запущен.")
    TelegramError
    (fun error =>
       logger_error ("Ошибка отправки сообщения в чат: " ++ exn_str error ++ ".")).

Definition get_api_answer (timestamp : Q) : M pyval :=
  let from_date := py_round timestamp in
  homework_status <-
    try_except
      (homework_status <- requests_get_endpoint from_date ;;
       (if negb (status_code homework_status =? 200) then
          let error_message :=
            "Ошибка при запросе к API " ++ dquote ++ "Яндекс.Домашка" ++ dquote
            ++ ". " ++ "Статус код: " ++ str_of_Z (status_code homework_status) in
          logger_error error_message ;;
          raise (new Exception error_message)
        else ret tt) ;;
       raise_for_status homework_status ;;
       ret homework_status)
      RequestException
      (fun error =>
         let error_message :=
           "Ошибка направления запроса к API " ++ dquote ++ "Яндекс.Домашка"
           ++ dquote ++ ": " ++ exn_str error ++ "." in
         logger_error error_message ;;
         raise (new Exception error_message)) ;;
  try_except
    (lift (json homework_status))
    JSONDecodeError
    (fun response_error =>
       let error_message :=
         "Ошибка при получении ответа: " ++ exn_str response_error in
       logger_error error_message ;;
       e <- JSONDecodeError_1 error_message ;;
       raise e).

Definition parse_status (homework : pyval) : result string :=
  homework_name <-- get homework "homework_name" ;;;
  if is_None homework_name then
    Raise (new_KeyError ("Ключ " ++ dquote ++ "homework_name" ++ dquote ++ " отсутствует."))
  else if negb (contains "status" homework) then
    Raise (new_KeyError ("Ключ " ++ dquote ++ "status" ++ dquote ++ " отсутствует."))
  else
    homework_status <-- getitem homework "status" ;;;
    known <-- verdict_of homework_status ;;;
    match known with
    | None => Raise (new SystemError "Неизвестный статус")
    | Some verdict =>
        Ok ("Изменился статус проверки работы " ++ dquote ++ str homework_name
            ++ dquote ++ ". " ++ verdict)
    end.

(** The [try] suite of the loop in [main]; its value is the new
    [timestamp]. *)
Definition attempt (bot : Bot) (timestamp : Q) : M Q :=
  response <- get_api_answer timestamp ;;
  homework <- lift (check_response response) ;;
  (if truthy homework then
     message <- lift (parse_status homework) ;;
     send_message bot message
   else
     logger_debug "Статус проверки работы не изменён.") ;;
  time.

(** One pass of the body of [while True:]: [timestamp] before, [timestamp]
    after.  A raised outcome is an exception that leaves [main]. *)
Definition cycle (bot : Bot) (timestamp : Q) : M Q :=
  try_finally
    (try_except
       (attempt bot timestamp)
       Exception
       (fun error =>
          let message := "Сбой в работе программы: " ++ exn_str error in
          logger_error message ;;
          send_message bot message ;;
          ret timestamp))
    (time_sleep RETRY_PERIOD).

(** The first [n] passes of [while True:]. *)
Fixpoint poll (n : nat) (bot : Bot) (timestamp : Q) : M Q :=
  match n with
  | O => ret timestamp
  | S n' => timestamp' <- cycle bot timestamp ;; poll n' bot timestamp'
  end.

(** [main()], up to the end of the [n]-th pass of its loop, which has no
    exit of its own. *)
Definition main (n : nat) : M Q :=
  ok <- check_tokens ;;
  if negb ok then exit
  else
    bot <- new_Bot TELEGRAM_TOKEN ;;
    send_message bot "Telegram бот запущен." ;;
    timestamp <- time ;;
    poll n bot timestamp.

End Program.

(** ** Vocabulary of the specification *)

(** The error taxonomy of the specification, read on the classes the
    program raises: a generic [Exception] reports the upstream API,
    [JSONDecodeError] a body that does not decode, [TypeError] and
    [KeyError] a body of the wrong shape, [SystemError] an unknown status. *)
Inductive ErrorKind : Type :=
| UpstreamError
| DecodeError
| SchemaError
| UnknownStatusError.

Definition error_kind (c : exn_class) : option ErrorKind :=
  match c with
  | Exception | RequestException => Some UpstreamError
  | JSONDecodeError => Some DecodeError
  | TypeError | KeyError => Some SchemaError
  | SystemError => Some UnknownStatusError
  | _ => None
  end.

Definition kind_of {A : Type} (r : result A) : option ErrorKind :=
  match r with
  | Ok _ => None
  | Raise e => error_kind (exn_class_of e)
  end.

(** The four ways a decoded body is malformed: not a mapping, no
    [homeworks], no [current_date], [homeworks] not a list. *)
Definition malformed (body : pyval) : bool :=
  negb (isinstance_dict body)
  || negb (contains "homeworks" body)
  || negb (contains "current_date" body)
  || match getitem body "homeworks" with
     | Ok homeworks => negb (isinstance_list homeworks)
     | Raise _ => false
     end.

(** A well-formed response mapping with the given list of submissions. *)
Definition well_formed (body : pyval) (homeworks : list pyval) : Prop :=
  exists d current_date,
    body = PyDict d /\
    assoc "homeworks" d = Some (PyList homeworks) /\
    assoc "current_date" d = Some current_date.


(** A secret that is in the environment and not empty. *)
Definition present (W : World) (name : string) : Prop :=
  exists v, os_getenv W name = Some v /\ v <> EmptyString.

(** Every failure of a send is a transport error of the messaging
    library, a [TelegramError]. *)
Definition transport_only (W : World) : Prop :=
  forall k chat_id text e,
    bot_send_message W k chat_id text = Some e ->
    issubclass (exn_class_of e) TelegramError = true.



(** The same world with other answers to the GETs. *)
Definition with_requests_get (W : World)
    (g : nat -> Z -> result Response) : World :=
  mkWorld (os_getenv W) (repr_of W) (time_time W) g
          (telegram_Bot W) (bot_send_message W).

Definition is_log (ev : event) : bool :=
  match ev with Log _ _ => true | _ => false end.



(** Inside a cycle, between its GET and its sleep: log lines and sends. *)
Definition inner (ev : event) : Prop :=
  match ev with
  | Log _ _ | SendMessage _ _ => True
  | Get _ _ _ | Sleep _ => False
  end.


(** What the fetch, validation and interpretation steps of a cycle come
    to: an error, no submission, or the message to send. *)
Definition steps (W : World) (timestamp : Q) (s : state)
    : result (option string) :=
  response <-- fst (get_api_answer W timestamp s) ;;;
  homework <-- check_response response ;;;
  if truthy homework then
    message <-- parse_status W homework ;;;
    Ok (Some message)
  else Ok None.

(** ** Sample worlds *)

Definition hw1_approved : pyval :=
  PyDict [ ("homeworks",
            PyList [ PyDict [ ("homework_name", PyStr "hw1");
                              ("status", PyStr "approved") ] ]);
           ("current_date", PyInt 100) ].

Definition env_all (name : string) : option string :=
  if String.eqb name "PRACTICUM_TOKEN" then Some "y0_token"
  else if String.eqb name "TELEGRAM_TOKEN" then Some "123456:ABC"
  else if String.eqb name "CHAT_ID" then Some "42"
  else None.

(** The clock at start and then every ten minutes. *)
Definition clock10 (k : nat) : Q := inject_Z (1000 + 600 * Z.of_nat k).

(** The API answers every GET with [body]. *)
Definition W_serving (body : pyval) : World :=
  mkWorld env_all (fun _ => "?") clock10
          (fun _ _ => Ok (mkResponse 200 EmptyString (Ok body)))
          (fun _ => None) (fun _ _ _ => None).

(** The API is unreachable. *)
Definition W_down : World :=
  mkWorld env_all (fun _ => "?") clock10
          (fun _ _ => Raise (new RequestException "Connection refused"))
          (fun _ => None) (fun _ _ _ => None).

(** The API answers 200 with a page that is not JSON. *)
Definition W_html : World :=
  mkWorld env_all (fun _ => "?") clock10
          (fun _ _ => Ok (mkResponse 200 EmptyString
             (Raise (new JSONDecodeError
                       "Expecting value: line 1 column 1 (char 0)"))))
          (fun _ => None) (fun _ _ _ => None).

(** The API answers 503. *)
Definition W_503 : World :=
  mkWorld env_all (fun _ => "?") clock10
          (fun _ _ => Ok (mkResponse 503
             "503 Server Error: Service Unavailable"
             (Raise (new JSONDecodeError
                       "Expecting value: line 1 column 1 (char 0)"))))
          (fun _ => None) (fun _ _ _ => None).



(** Nothing is in the environment. *)
Definition W_bare : World :=
  mkWorld (fun _ => None)
          (fun _ => "?") clock10
          (fun _ _ => Ok (mkResponse 200 EmptyString (Ok hw1_approved)))
          (fun _ => None) (fun _ _ _ => None).

Definition bot0 : Bot := mkBot (PyStr "123456:ABC").

(** A submission whose [status] is a list. *)
Definition hw_list_status : pyval :=
  PyDict [ ("homework_name", PyStr "hw1"); ("status", PyList []) ].

(** A response whose first submission is an empty mapping. *)
Definition empty_first : pyval :=
  PyDict [ ("homeworks", PyList [ PyDict [] ; hw_list_status ]);
           ("current_date", PyInt 100) ].

(** The GET of the cycle that starts in state [s] with cursor [timestamp]
    is answered 200 with a body that decodes to [body]. *)
Definition serves (W : World) (s : state) (timestamp : Q) (body : pyval)
    : Prop :=
  exists r,
    requests_get W (gets s) (py_round timestamp) = Ok r /\
    status_code r = 200 /\
    json r = Ok body.

(** The state after a computation added [evs] and made [r] clock readings,
    [g] GETs and [n] sends. *)
Definition advance (s : state) (r g n : nat) (evs : list event) : state :=
  mkState (r + reads s) (g + gets s) (n + sends s) (trace s ++ evs).

(** How a cycle without a submission ends: one GET, one diagnostic log
    line, the cursor set to the clock, the sleep; nothing sent. *)
Definition no_submission (W : World) (timestamp : Q) (s : state)
    : result Q * state :=
  (Ok (time_time W (reads s)),
   advance s 1 1 0
     [Get ENDPOINT (HEADERS W) (py_round timestamp);
      Log DEBUG "Статус проверки работы не изменён.";
      Sleep 600]).

(** The report of a failed cycle. *)
Definition failure_message (e : exn) : string :=
  "Сбой в работе программы: " ++ exn_str e.


(** The texts of the messages sent, in order. *)
Definition sent_texts (evs : list event) : list string :=
  flat_map (fun ev => match ev with
                      | SendMessage _ text => [text]
                      | _ => []
                      end) evs.

(** The from-dates of the GETs made, in order. *)
Definition from_dates (evs : list event) : list Z :=
  flat_map (fun ev => match ev with
                      | Get _ _ from_date => [from_date]
                      | _ => []
                      end) evs.

(** What the HTTP library raises, from the GET or from [.json()], derives
    from [Exception]. *)
Definition http_raises_exceptions (W : World) : Prop :=
  (forall k from_date e,
     requests_get W k from_date = Raise e ->
     issubclass (exn_class_of e) Exception = true) /\
  (forall k from_date r e,
     requests_get W k from_date = Ok r ->
     json r = Raise e ->
     issubclass (exn_class_of e) Exception = true).

(** The API has nothing new, whenever it is asked: its answer validates to
    something falsy. *)
Definition idle (W : World) : Prop :=
  forall s timestamp,
    exists body homework,
      serves W s timestamp body /\
      check_response body = Ok homework /\
      truthy homework = false.

(** The API cannot be reached, whenever it is asked: the GET raises a
    [RequestException]. *)
Definition outage (W : World) : Prop :=
  forall k from_date,
    exists e,
      requests_get W k from_date = Raise e /\
      issubclass (exn_class_of e) RequestException = true.

(** The API is unreachable and every send raises something that is not a
    [TelegramError]. *)
Definition W_cut_off : World :=
  mkWorld env_all (fun _ => "?") clock10
          (fun _ _ => Raise (new RequestException "Connection refused"))
          (fun _ => None)
          (fun _ _ _ => Some (new TypeError "chat_id")).

(** Only [PRACTICUM_TOKEN] is in the environment, and the messaging
    library refuses a missing token. *)
Definition W_no_bot_token : World :=
  mkWorld (fun name =>
             if String.eqb name "PRACTICUM_TOKEN" then Some "y0_token"
             else None)
          (fun _ => "?") clock10
          (fun _ _ => Ok (mkResponse 200 EmptyString (Ok hw1_approved)))
          (fun tok => if is_None tok
                      then Some (new TelegramError "Invalid token")
                      else None)
          (fun _ _ _ => None).

(** A response whose only submission is the number 7. *)
Definition seven_first : pyval :=
  PyDict [ ("homeworks", PyList [PyInt 7]); ("current_date", PyInt 100) ].

(** The API answers every GET with 200 and an empty list of submissions. *)
Definition W_idle : World :=
  W_serving (PyDict [ ("homeworks", PyList []); ("current_date", PyInt 100) ]).

(** Only [TELEGRAM_TOKEN] is in the environment. *)
Definition W_no_api_token : World :=
  mkWorld (fun name =>
             if String.eqb name "TELEGRAM_TOKEN" then Some "123456:ABC"
             else None)
          (fun _ => "?") clock10
          (fun _ _ => Ok (mkResponse 200 EmptyString (Ok hw1_approved)))
          (fun _ => None) (fun _ _ _ => None).

(** The messaging library refuses the token. *)
Definition W_bad_token : World :=
  mkWorld env_all (fun _ => "?") clock10
          (fun _ _ => Ok (mkResponse 200 EmptyString (Ok hw1_approved)))
          (fun _ => Some (new Exception "Invalid token"))
          (fun _ _ _ => None).

(** Every send raises something that is not a [TelegramError]. *)
Definition W_broken_send : World :=
  mkWorld env_all (fun _ => "?") clock10
          (fun _ _ => Ok (mkResponse 200 EmptyString (Ok hw1_approved)))
          (fun _ => None)
          (fun _ _ _ => Some (new TypeError "chat_id")).

(** ** Python values and exceptions *)

Lemma issubclass_refl (c : exn_class) : issubclass c c = true.
Proof. destruct c; reflexivity. Qed.

Lemma contains_assoc (key : string) (d : list (string * pyval)) :
  contains key (PyDict d) = true <-> exists v, assoc key d = Some v.
Proof.
  simpl. destruct (assoc key d) as [v|].
  - split; [exists v; reflexivity | reflexivity].
  - split; [discriminate | intros [v Hv]; discriminate].
Qed.

Lemma falsy_has_no_name (v : pyval) :
  truthy v = false ->
  get v "homework_name" = Ok PyNone \/
  raised_class (get v "homework_name") = Some AttributeError.
Proof.
  destruct v as [| b | n | q | s | l | d]; simpl; intros H; auto.
  destruct d; [left; reflexivity | discriminate].
Qed.

(** No falsy value is a submission the Interpreter accepts. *)
Lemma parse_status_falsy (W : World) (v : pyval) :
  truthy v = false -> is_Ok (parse_status W v) = false.
Proof.
  intros H. unfold parse_status.
  destruct (falsy_has_no_name v H) as [E | E].
  - rewrite E. reflexivity.
  - destruct (get v "homework_name"); [discriminate | reflexivity].
Qed.

(** ** The primitives, equation by equation *)

Lemma advance_0 (s : state) : advance s 0 0 0 [] = s.
Proof. destruct s; unfold advance; simpl. now rewrite app_nil_r. Qed.

Lemma advance_advance (s : state) (r g n r' g' n' : nat) (evs evs' : list event) :
  advance (advance s r g n evs) r' g' n' evs' =
  advance s (r' + r) (g' + g) (n' + n) (evs ++ evs')%list.
Proof.
  unfold advance; simpl. f_equal; try lia. now rewrite app_assoc.
Qed.

Lemma emit_eq (ev : event) (s : state) :
  emit ev s = (Ok tt, advance s 0 0 0 [ev]).
Proof. reflexivity. Qed.

Lemma time_eq (W : World) (s : state) :
  time W s = (Ok (time_time W (reads s)), advance s 1 0 0 []).
Proof. unfold time, advance; simpl. now rewrite app_nil_r. Qed.

(** [send_message] in full: one send, then one log line; only an exception
    that is not a [TelegramError] gets out. *)
Lemma send_message_eq (W : World) (bot : Bot) (message : string) (s : state) :
  send_message W bot message s =
  match bot_send_message W (sends s) (TELEGRAM_CHAT_ID W) message with
  | None =>
      (Ok tt, advance s 0 0 1 [SendMessage (TELEGRAM_CHAT_ID W) message;
                               Log DEBUG "Telegram бот запущен."])
  | Some e =>
      if issubclass (exn_class_of e) TelegramError then
        (Ok tt, advance s 0 0 1
           [SendMessage (TELEGRAM_CHAT_ID W) message;
            Log ERROR ("Ошибка отправки сообщения в чат: " ++ exn_str e ++ ".")])
      else
        (Raise e, advance s 0 0 1 [SendMessage (TELEGRAM_CHAT_ID W) message])
  end.
Proof.
  unfold send_message, try_except, bind, Bot_send_message, logger_debug,
    logger_error, emit, advance.
  destruct (bot_send_message W (sends s) (TELEGRAM_CHAT_ID W) message) as [e|];
    simpl.
  - destruct (issubclass (exn_class_of e) TelegramError); simpl;
      [now rewrite <- app_assoc | reflexivity].
  - now rewrite <- app_assoc.
Qed.

(** [get_api_answer] in full, by what the GET and [.json()] do. *)
Lemma get_api_answer_eq (W : World) (timestamp : Q) (s : state) :
  get_api_answer W timestamp s =
  let from_date := py_round timestamp in
  let got := Get ENDPOINT (HEADERS W) from_date in
  match requests_get W (gets s) from_date with
  | Raise e =>
      if issubclass (exn_class_of e) RequestException then
        let error_message :=
          "Ошибка направления запроса к API " ++ dquote ++ "Яндекс.Домашка"
          ++ dquote ++ ": " ++ exn_str e ++ "." in
        (Raise (new Exception error_message),
         advance s 0 1 0 [got; Log ERROR error_message])
      else (Raise e, advance s 0 1 0 [got])
  | Ok r =>
      if status_code r =? 200 then
        match json r with
        | Ok body => (Ok body, advance s 0 1 0 [got])
        | Raise e =>
            if issubclass (exn_class_of e) JSONDecodeError then
              (Raise (new TypeError
                 "JSONDecodeError.__init__() missing 2 required positional arguments: 'doc' and 'pos'"),
               advance s 0 1 0
                 [got; Log ERROR ("Ошибка при получении ответа: " ++ exn_str e)])
            else (Raise e, advance s 0 1 0 [got])
        end
      else
        let error_message :=
          "Ошибка при запросе к API " ++ dquote ++ "Яндекс.Домашка" ++ dquote
          ++ ". " ++ "Статус код: " ++ str_of_Z (status_code r) in
        (Raise (new Exception error_message),
         advance s 0 1 0 [got; Log ERROR error_message])
  end.
Proof.
  unfold get_api_answer, try_except, bind, requests_get_endpoint,
    raise_for_status, JSONDecodeError_1, logger_error, emit, raise, ret, lift,
    advance.
  cbv zeta.
  destruct (requests_get W (gets s) (py_round timestamp)) as [r | e]; cbn [fst snd].
  - destruct (Z.eqb_spec (status_code r) 200) as [E | NE]; cbn.
    + rewrite E. cbn.
      destruct (json r) as [body | e]; cbn; [reflexivity|].
      destruct (issubclass (exn_class_of e) JSONDecodeError); cbn;
        [now rewrite <- app_assoc | reflexivity].
    + now rewrite <- app_assoc.
  - destruct (issubclass (exn_class_of e) RequestException); cbn;
      [now rewrite <- app_assoc | reflexivity].
Qed.

(** Case analysis on what the GET and [.json()] of a fetch did, after
    [get_api_answer_eq]. *)
Ltac fetch_cases W :=
  cbv zeta;
  let r := fresh "r" in
  let e := fresh "e" in
  let body := fresh "body" in
  destruct (requests_get W _ _) as [r | e];
  [ destruct (status_code r =? 200);
    [ destruct (json r) as [body | e];
      [ | destruct (issubclass (exn_class_of e) JSONDecodeError) ] | ]
  | destruct (issubclass (exn_class_of e) RequestException) ].

(** The [try] suite of the loop, step by step. *)
Lemma attempt_eq (W : World) (bot : Bot) (timestamp : Q) (s : state) :
  attempt W bot timestamp s =
  match get_api_answer W timestamp s with
  | (Raise e, s1) => (Raise e, s1)
  | (Ok response, s1) =>
      match check_response response with
      | Raise e => (Raise e, s1)
      | Ok homework =>
          if truthy homework then
            match parse_status W homework with
            | Raise e => (Raise e, s1)
            | Ok message =>
                match send_message W bot message s1 with
                | (Ok _, s2) => time W s2
                | (Raise e, s2) => (Raise e, s2)
                end
            end
          else
            time W (advance s1 0 0 0
                      [Log DEBUG "Статус проверки работы не изменён."])
      end
  end.
Proof.
  unfold attempt, bind, lift.
  destruct (get_api_answer W timestamp s) as [[response | e] s1]; [|reflexivity].
  destruct (check_response response) as [homework | e]; [|reflexivity].
  destruct (truthy homework); [|reflexivity].
  destruct (parse_status W homework) as [message | e]; reflexivity.
Qed.

(** One pass of the loop, by what its [try] suite did. *)
Lemma cycle_eq (W : World) (bot : Bot) (timestamp : Q) (s : state) :
  cycle W bot timestamp s =
  match attempt W bot timestamp s with
  | (Ok now, s1) => (Ok now, advance s1 0 0 0 [Sleep 600])
  | (Raise e, s1) =>
      if issubclass (exn_class_of e) Exception then
        match send_message W bot (failure_message e)
                (advance s1 0 0 0 [Log ERROR (failure_message e)]) with
        | (Ok _, s2) => (Ok timestamp, advance s2 0 0 0 [Sleep 600])
        | (Raise e', s2) => (Raise e', advance s2 0 0 0 [Sleep 600])
        end
      else (Raise e, advance s1 0 0 0 [Sleep 600])
  end.
Proof.
  unfold cycle, try_finally, try_except, time_sleep.
  destruct (attempt W bot timestamp s) as [[now | e] s1]; [reflexivity|].
  destruct (issubclass (exn_class_of e) Exception); [|reflexivity].
  unfold bind, logger_error. rewrite emit_eq.
  fold (failure_message e).
  destruct (send_message W bot (failure_message e)
              (advance s1 0 0 0 [Log ERROR (failure_message e)]))
    as [[[] | e'] s2]; reflexivity.
Qed.

Lemma get_api_answer_serves (W : World) (timestamp : Q) (s : state)
    (body : pyval) :
  serves W s timestamp body ->
  get_api_answer W timestamp s =
  (Ok body, advance s 0 1 0 [Get ENDPOINT (HEADERS W) (py_round timestamp)]).
Proof.
  intros (r & Hget & Hstatus & Hjson).
  rewrite get_api_answer_eq. cbv zeta.
  rewrite Hget, Hstatus, Hjson. reflexivity.
Qed.

(** A cycle whose validated body holds nothing truthy in front. *)
Lemma cycle_no_submission (W : World) (bot : Bot) (timestamp : Q) (s : state)
    (body homework : pyval) :
  serves W s timestamp body ->
  check_response body = Ok homework ->
  truthy homework = false ->
  cycle W bot timestamp s = no_submission W timestamp s.
Proof.
  intros Hserves Hcheck Hfalsy.
  rewrite cycle_eq, attempt_eq, (get_api_answer_serves _ _ _ _ Hserves).
  rewrite Hcheck, Hfalsy, time_eq.
  unfold no_submission. rewrite !advance_advance. reflexivity.
Qed.

(** A cycle whose fetched body the Validator or the Interpreter refuses:
    the failure is logged and reported, nothing else is sent, the cursor
    stays. *)
Lemma cycle_refused (W : World) (bot : Bot) (timestamp : Q) (s : state)
    (body : pyval) (e : exn) :
  serves W s timestamp body ->
  rbind (check_response body)
        (fun homework =>
           if truthy homework then parse_status W homework
           else Ok EmptyString) = Raise e ->
  issubclass (exn_class_of e) Exception = true ->
  exists logs,
    trace (snd (cycle W bot timestamp s)) =
      (trace s ++
       [Get ENDPOINT (HEADERS W) (py_round timestamp);
        Log ERROR (failure_message e);
        SendMessage (TELEGRAM_CHAT_ID W) (failure_message e)] ++
       logs ++ [Sleep 600])%list /\
    Forall (fun ev => is_log ev = true) logs /\
    (forall timestamp', fst (cycle W bot timestamp s) = Ok timestamp' ->
                        timestamp' = timestamp).
Proof.
  intros Hserves Hraise Hexc.
  assert (Hattempt : attempt W bot timestamp s =
            (Raise e, advance s 0 1 0
                        [Get ENDPOINT (HEADERS W) (py_round timestamp)])).
  { rewrite attempt_eq, (get_api_answer_serves _ _ _ _ Hserves).
    unfold rbind in Hraise.
    destruct (check_response body) as [homework | e0];
      [|now inversion Hraise].
    destruct (truthy homework); [|discriminate].
    destruct (parse_status W homework); [discriminate | now inversion Hraise]. }
  rewrite cycle_eq, Hattempt, Hexc, send_message_eq.
  destruct (bot_send_message W _ _ _) as [e'|];
    [destruct (issubclass (exn_class_of e') TelegramError)|];
    rewrite !advance_advance; cbn [fst snd advance trace].
  - eexists [_]. split; [reflexivity | split].
    + repeat constructor.
    + intros ? H. now inversion H.
  - exists []. split; [reflexivity | split].
    + constructor.
    + discriminate.
  - eexists [_]. split; [reflexivity | split].
    + repeat constructor.
    + intros ? H. now inversion H.
Qed.

(** ** The Response Validator *)

Lemma check_response_malformed_raises (body : pyval) :
  malformed body = true ->
  exists e,
    check_response body = Raise e /\
    (exn_class_of e = TypeError \/ exn_class_of e = KeyError).
Proof.
  unfold malformed, check_response.
  destruct body as [| b | n | q | str | l | d]; cbn;
    try (intros _; eexists; split; [reflexivity | now left]).
  destruct (assoc "homeworks" d) as [homeworks|]; cbn;
    [| intros _; eexists; split; [reflexivity | now right]].
  destruct (assoc "current_date" d) as [current_date|]; cbn;
    [| intros _; eexists; split; [reflexivity | now right]].
  destruct homeworks; cbn; try discriminate;
    intros _; eexists; split; try reflexivity; now left.
Qed.

(** C3: a decoded body that is not a mapping, or lacks [homeworks] or
    [current_date], or whose [homeworks] is not a list, makes
    [check_response] fail with an error of the SchemaError kind; and a
    cycle that fetched such a body sends nothing but the report of that
    failure and leaves the cursor where it was: no submission of the body
    is interpreted or notified. *)
Theorem check_response_malformed (body : pyval) :
  malformed body = true ->
  kind_of (check_response body) = Some SchemaError /\
  forall (W : World) (bot : Bot) (timestamp : Q) (s : state),
    serves W s timestamp body ->
    exists e logs,
      check_response body = Raise e /\
      trace (snd (cycle W bot timestamp s)) =
        (trace s ++
         [Get ENDPOINT (HEADERS W) (py_round timestamp);
          Log ERROR (failure_message e);
          SendMessage (TELEGRAM_CHAT_ID W) (failure_message e)] ++
         logs ++ [Sleep 600])%list /\
      Forall (fun ev => is_log ev = true) logs /\
      (forall timestamp', fst (cycle W bot timestamp s) = Ok timestamp' ->
                          timestamp' = timestamp).
Proof.
  intros Hbad.
  destruct (check_response_malformed_raises body Hbad) as (e & Hcheck & Hclass).
  split.
  - rewrite Hcheck. cbn. destruct Hclass as [-> | ->]; reflexivity.
  - intros W bot timestamp s Hserves.
    destruct (cycle_refused W bot timestamp s body e Hserves) as (logs & H).
    + rewrite Hcheck. reflexivity.
    + destruct Hclass as [-> | ->]; reflexivity.
    + exists e, logs. split; [exact Hcheck | exact H].
Qed.

Lemma check_response_malformed_witness :
  malformed (PyList []) = true /\
  kind_of (check_response (PyList [])) = Some SchemaError.
Proof.
  split.
  - reflexivity.
  - apply (check_response_malformed (PyList [])). reflexivity.
Defined.

Lemma check_response_well_formed (body : pyval) (homeworks : list pyval) :
  well_formed body homeworks ->
  check_response body =
  Ok (match homeworks with [] => PyNone | first :: _ => first end).
Proof.
  intros (d & current_date & -> & Hhw & Hcd).
  unfold check_response. cbn. rewrite Hhw, Hcd. cbn.
  destruct homeworks; reflexivity.
Qed.



(** C10: when the first element of a non-empty [homeworks] list is falsy
    (an empty mapping, say) the cycle ends as a cycle without a submission
    does: [parse_status], which would have refused that element, is not
    called, nothing is sent, no error is raised or logged, and the cursor
    moves to the clock. *)
Theorem falsy_first_submission_skipped (W : World) (bot : Bot)
    (timestamp : Q) (s : state) (body first : pyval) (rest : list pyval) :
  well_formed body (first :: rest) ->
  truthy first = false ->
  serves W s timestamp body ->
  cycle W bot timestamp s = no_submission W timestamp s /\
  is_Ok (parse_status W first) = false.
Proof.
  intros Hwf Hfalsy Hserves. split.
  - apply (cycle_no_submission W bot timestamp s body first);
      [exact Hserves | | exact Hfalsy].
    exact (check_response_well_formed _ _ Hwf).
  - now apply parse_status_falsy.
Qed.

Lemma falsy_first_submission_skipped_witness :
  cycle (W_serving empty_first) bot0 (1000 # 1) initial =
    no_submission (W_serving empty_first) (1000 # 1) initial /\
  is_Ok (parse_status (W_serving empty_first) (PyDict [])) = false.
Proof.
  apply (falsy_first_submission_skipped (W_serving empty_first) bot0
           (1000 # 1) initial empty_first (PyDict []) [hw_list_status]).
  - eexists; eexists. repeat split; reflexivity.
  - reflexivity.
  - eexists. repeat split; reflexivity.
Defined.

(** ** The Status Interpreter *)

(** C6: validating and then interpreting the body
    [{"homeworks":[{"homework_name":"hw1","status":"approved"}],
      "current_date":100}] gives exactly the message of the approved
    verdict for [hw1]. *)
Theorem hw1_round_trip (W : World) :
  rbind (check_response hw1_approved) (parse_status W) =
  Ok ("Изменился статус проверки работы " ++ dquote ++ "hw1" ++ dquote
      ++ ". Работа проверена: ревьюеру всё понравилось. Ура!").
Proof. reflexivity. Qed.





(** ** The API Client *)

(** C7, on the code: for every cursor, a GET answered with a status other
    than 200 makes [get_api_answer] fail with an [Exception], of the
    UpstreamError kind, whose text ends with the status code, and a GET
    answered 200 with a body that decodes makes it return that body as it
    is.  But when [.json()] raises a [JSONDecodeError] the function fails
    with a [TypeError], which is not of the DecodeError kind: the handler
    calls [JSONDecodeError] with one argument. *)
Theorem get_api_answer_outcomes (W : World) (timestamp : Q) (s : state)
    (r : Response) :
  requests_get W (gets s) (py_round timestamp) = Ok r ->
  (status_code r <> 200 ->
   exists text,
     fst (get_api_answer W timestamp s) =
       Raise (new Exception (text ++ str_of_Z (status_code r))) /\
     kind_of (fst (get_api_answer W timestamp s)) = Some UpstreamError) /\
  (status_code r = 200 ->
   forall body, json r = Ok body ->
     fst (get_api_answer W timestamp s) = Ok body) /\
  (status_code r = 200 ->
   forall e, json r = Raise e -> exn_class_of e = JSONDecodeError ->
     raised_class (fst (get_api_answer W timestamp s)) = Some TypeError /\
     kind_of (fst (get_api_answer W timestamp s)) <> Some DecodeError).
Proof.
  intros Hget. rewrite get_api_answer_eq. cbv zeta. rewrite Hget.
  split; [|split].
  - intros Hstatus. apply Z.eqb_neq in Hstatus. rewrite Hstatus.
    exists ("Ошибка при запросе к API " ++ dquote ++ "Яндекс.Домашка"
            ++ dquote ++ ". " ++ "Статус код: ").
    split; reflexivity.
  - intros -> body ->. reflexivity.
  - intros -> e -> ->. cbn. split; [reflexivity | discriminate].
Qed.

Lemma get_api_answer_outcomes_witness :
  raised_class (fst (get_api_answer W_html (1000 # 1) initial)) =
    Some TypeError /\
  kind_of (fst (get_api_answer W_html (1000 # 1) initial)) <>
    Some DecodeError.
Proof.
  refine (proj2 (proj2 (get_api_answer_outcomes W_html (1000 # 1) initial
                          (mkResponse 200 EmptyString
                             (Raise (new JSONDecodeError
                                "Expecting value: line 1 column 1 (char 0)")))
                          eq_refl))
                eq_refl _ eq_refl eq_refl).
Defined.

Example get_api_answer_503 :
  fst (get_api_answer W_503 (1000 # 1) initial) =
  Raise (new Exception
           ("Ошибка при запросе к API " ++ dquote ++ "Яндекс.Домашка" ++ dquote
            ++ ". Статус код: 503")).
Proof. reflexivity. Qed.

Example get_api_answer_unreachable :
  get_api_answer W_down (1000 # 1) initial =
  (Raise (new Exception
            ("Ошибка направления запроса к API " ++ dquote ++ "Яндекс.Домашка"
             ++ dquote ++ ": Connection refused.")),
   advance initial 0 1 0
     [Get ENDPOINT "OAuth y0_token" 1000;
      Log ERROR
        ("Ошибка направления запроса к API " ++ dquote ++ "Яндекс.Домашка"
         ++ dquote ++ ": Connection refused.")]).
Proof. reflexivity. Qed.

(** ** The Notifier and the poll loop *)


Lemma get_api_answer_trace (W : World) (timestamp : Q) (s : state) :
  exists logs,
    trace (snd (get_api_answer W timestamp s)) =
      (trace s ++ Get ENDPOINT (HEADERS W) (py_round timestamp) :: logs)%list /\
    Forall inner logs.
Proof.
  rewrite get_api_answer_eq. fetch_cases W;
    eexists; (split; [reflexivity | repeat constructor]).
Qed.




(** *** Telling computations apart by the log only *)
















(** *** The cursor *)



Lemma send_message_returns (W : World) (bot : Bot) (message : string)
    (s : state) :
  transport_only W -> fst (send_message W bot message s) = Ok tt.
Proof.
  intros Htransport. rewrite send_message_eq.
  destruct (bot_send_message W _ _ _) as [e|] eqn:Hsend; [|reflexivity].
  now rewrite (Htransport _ _ _ _ Hsend).
Qed.


Lemma attempt_by_steps (W : World) (bot : Bot) (timestamp : Q) (s : state) :
  match steps W timestamp s with
  | Raise e =>
      attempt W bot timestamp s = (Raise e, snd (get_api_answer W timestamp s))
  | Ok None =>
      attempt W bot timestamp s =
      time W (advance (snd (get_api_answer W timestamp s)) 0 0 0
                [Log DEBUG "Статус проверки работы не изменён."])
  | Ok (Some message) =>
      attempt W bot timestamp s =
      bind (send_message W bot message) (fun _ => time W)
           (snd (get_api_answer W timestamp s))
  end.
Proof.
  unfold steps. rewrite attempt_eq.
  destruct (get_api_answer W timestamp s) as [[response | e] s1];
    cbn [fst snd rbind]; [|reflexivity].
  destruct (check_response response) as [homework | e];
    cbn [rbind]; [|reflexivity].
  destruct (truthy homework); [|reflexivity].
  destruct (parse_status W homework) as [message | e];
    cbn [rbind]; reflexivity.
Qed.







(** ** The startup check *)


Lemma present_truthy (W : World) (name : string) :
  present W name -> truthy (getenv W name) = true.
Proof.
  unfold getenv. intros (v & -> & Hv). cbn.
  destruct (String.eqb_spec v EmptyString); [contradiction | reflexivity].
Qed.






Example main_without_secrets :
  main W_bare 3 initial =
  (Raise (new SystemExit "None"),
   advance initial 0 0 0 [Log CRITICAL "Отсутвует переменная окружения."]).
Proof. reflexivity. Qed.

(** Passing the check is not reaching the loop: with the API token alone
    the check passes, the bot is built from a missing token, and when the
    library refuses it [main] ends there, with nothing sent or asked. *)
Example main_without_bot_token :
  present W_no_bot_token "PRACTICUM_TOKEN" /\
  check_tokens W_no_bot_token initial = (Ok true, initial) /\
  TELEGRAM_TOKEN W_no_bot_token = PyNone /\
  main W_no_bot_token 3 initial =
    (Raise (new TelegramError "Invalid token"), initial).
Proof.
  split; [|repeat split].
  exists "y0_token". split; [reflexivity | discriminate].
Qed.

(** * Further properties of the code *)

(** ** [get_api_answer] *)

Lemma get_api_answer_advance (W : World) (timestamp : Q) (s : state) :
  exists logs,
    snd (get_api_answer W timestamp s) =
      advance s 0 1 0
        (Get ENDPOINT (HEADERS W) (py_round timestamp) :: logs) /\
    (length logs <= 1)%nat /\
    Forall (fun ev => exists msg, ev = Log ERROR msg) logs /\
    (is_Ok (fst (get_api_answer W timestamp s)) = true -> logs = []).
Proof.
  rewrite get_api_answer_eq. fetch_cases W; cbn [fst snd is_Ok];
    eexists; (split; [reflexivity|]); cbn [length];
    (split; [lia|]);
    (split; [repeat constructor; eexists; reflexivity
            | reflexivity || discriminate]).
Qed.

(** A call of [get_api_answer] makes exactly one GET, to [ENDPOINT], with
    the [OAuth] header and the cursor rounded to an integer as
    [from_date]; it adds at most one log line, at ERROR, and neither sends
    a message nor reads the clock.  There is no retry in it. *)
Theorem get_api_answer_one_request (W : World) (timestamp : Q) (s : state) :
  exists logs,
    snd (get_api_answer W timestamp s) =
      advance s 0 1 0
        (Get ENDPOINT (HEADERS W) (py_round timestamp) :: logs) /\
    (length logs <= 1)%nat /\
    Forall (fun ev => exists msg, ev = Log ERROR msg) logs /\
    (is_Ok (fst (get_api_answer W timestamp s)) = true -> logs = []).
Proof.
  rewrite get_api_answer_eq. fetch_cases W; cbn [fst snd is_Ok];
    eexists; (split; [reflexivity|]); cbn [length];
    (split; [lia|]);
    (split; [repeat constructor; eexists; reflexivity
            | reflexivity || discriminate]).
Qed.

(** When the GET raises a [RequestException], [get_api_answer] logs and
    raises a plain [Exception] whose text wraps that of the cause: the
    class of the transport failure is not kept. *)
Theorem get_api_answer_transport_failure (W : World) (timestamp : Q)
    (s : state) (e : exn) :
  requests_get W (gets s) (py_round timestamp) = Raise e ->
  issubclass (exn_class_of e) RequestException = true ->
  let text := "Ошибка направления запроса к API " ++ dquote
              ++ "Яндекс.Домашка" ++ dquote ++ ": " ++ exn_str e ++ "." in
  get_api_answer W timestamp s =
  (Raise (new Exception text),
   advance s 0 1 0
     [Get ENDPOINT (HEADERS W) (py_round timestamp); Log ERROR text]).
Proof.
  intros Hget Hclass. rewrite get_api_answer_eq. cbv zeta.
  now rewrite Hget, Hclass.
Qed.

Lemma get_api_answer_transport_failure_witness :
  raised_class (fst (get_api_answer W_down (1000 # 1) initial)) =
  Some Exception.
Proof.
  rewrite (get_api_answer_transport_failure W_down (1000 # 1) initial
             (new RequestException "Connection refused") eq_refl eq_refl).
  reflexivity.
Defined.

(** The call of [raise_for_status()] never decides anything: it comes
    after the test of the status code against 200, so the error it would
    raise for a response plays no part in what [get_api_answer] does. *)
Theorem get_api_answer_ignores_raise_for_status (W : World)
    (g g' : nat -> Z -> result Response) (timestamp : Q) (s : state)
    (code : Z) (text text' : string) (decoded : result pyval) :
  g (gets s) (py_round timestamp) = Ok (mkResponse code text decoded) ->
  g' (gets s) (py_round timestamp) = Ok (mkResponse code text' decoded) ->
  get_api_answer (with_requests_get W g) timestamp s =
  get_api_answer (with_requests_get W g') timestamp s.
Proof.
  intros Hg Hg'. rewrite !get_api_answer_eq. cbv zeta.
  cbn [requests_get with_requests_get]. rewrite Hg, Hg'. reflexivity.
Qed.

Lemma get_api_answer_ignores_raise_for_status_witness :
  get_api_answer
    (with_requests_get W_down
       (fun _ _ => Ok (mkResponse 200 "never raised" (Ok hw1_approved))))
    (1000 # 1) initial =
  get_api_answer
    (with_requests_get W_down
       (fun _ _ => Ok (mkResponse 200 EmptyString (Ok hw1_approved))))
    (1000 # 1) initial.
Proof.
  apply (get_api_answer_ignores_raise_for_status W_down _ _ (1000 # 1)
           initial 200 "never raised" EmptyString (Ok hw1_approved));
    reflexivity.
Defined.

Lemma py_round_nearest (x : Q) :
  (inject_Z (py_round x) - (1 # 2) <= x <= inject_Z (py_round x) + (1 # 2))%Q.
Proof.
  unfold py_round.
  pose proof (Qfloor_le x) as Hlo.
  pose proof (Qlt_floor x) as Hhi.
  rewrite inject_Z_plus in Hhi. change (inject_Z 1) with 1%Q in Hhi.
  destruct (Qcompare (x - inject_Z (Qfloor x)) (1 # 2)) eqn:Hcmp.
  - apply Qeq_alt in Hcmp.
    destruct (Z.even (Qfloor x)); rewrite ?inject_Z_plus;
      change (inject_Z 1) with 1%Q; lra.
  - apply Qlt_alt in Hcmp. lra.
  - apply Qgt_alt in Hcmp. rewrite inject_Z_plus.
    change (inject_Z 1) with 1%Q. lra.
Qed.

Lemma py_round_integer (n : Z) : py_round (inject_Z n) = n.
Proof.
  unfold py_round. rewrite Qfloor_Z.
  destruct (Qcompare (inject_Z n - inject_Z n) (1 # 2)) eqn:Hcmp.
  - apply Qeq_alt in Hcmp. lra.
  - reflexivity.
  - apply Qgt_alt in Hcmp. lra.
Qed.

(** The [from_date] of the request is the integer nearest to the cursor:
    it is within half a second of it, and it is the cursor itself when the
    cursor is a whole number of seconds. *)
Theorem from_date_nearest_second (W : World) (timestamp : Q) (s : state) :
  exists from_date logs,
    trace (snd (get_api_answer W timestamp s)) =
      (trace s ++ Get ENDPOINT (HEADERS W) from_date :: logs)%list /\
    (inject_Z from_date - (1 # 2) <= timestamp
       <= inject_Z from_date + (1 # 2))%Q /\
    (forall n, timestamp = inject_Z n -> from_date = n).
Proof.
  destruct (get_api_answer_trace W timestamp s) as (logs & Htrace & _).
  exists (py_round timestamp), logs.
  split; [exact Htrace | split].
  - apply py_round_nearest.
  - intros n ->. apply py_round_integer.
Qed.

(** ** [check_response] *)

(** [check_response] returns exactly on the bodies that are not malformed:
    mappings with a [current_date] and a [homeworks] list, of which it
    returns the first element, or [None] for an empty list.  On every other
    body it raises a [TypeError] or a [KeyError]; the subscript
    [homeworks[0]] is guarded by the emptiness test and never raises an
    [IndexError]. *)
Theorem check_response_total (body : pyval) :
  is_Ok (check_response body) = negb (malformed body) /\
  (forall homework,
     check_response body = Ok homework ->
     exists homeworks,
       well_formed body homeworks /\
       homework = match homeworks with
                  | [] => PyNone
                  | first :: _ => first
                  end) /\
  (forall e,
     check_response body = Raise e ->
     exn_class_of e = TypeError \/ exn_class_of e = KeyError).
Proof.
  unfold check_response, malformed, well_formed.
  destruct body as [| b | n | q | text | l | d]; cbn;
    try (split; [reflexivity | split; [discriminate |]];
         intros e H; inversion H; now left).
  destruct (assoc "homeworks" d) as [homeworks|] eqn:Hhw; cbn;
    [| split; [reflexivity | split; [discriminate |]];
       intros e H; inversion H; now right].
  destruct (assoc "current_date" d) as [current_date|] eqn:Hcd; cbn;
    [| split; [reflexivity | split; [discriminate |]];
       intros e H; inversion H; now right].
  destruct homeworks as [| b | n | q | text | l | d']; cbn;
    try (split; [reflexivity | split; [discriminate |]];
         intros e H; inversion H; now left).
  destruct l as [| first rest]; cbn;
    (split; [reflexivity | split; [| discriminate]]);
    intros homework H; inversion H; subst;
    eexists;
    (split; [exists d, current_date;
             split; [reflexivity | split; [exact Hhw | exact Hcd]]
            | reflexivity]).
Qed.

(** ** [parse_status] *)

(** For a record whose [homework_name] is a string, the empty one
    included, and whose [status] is a key of the verdict table,
    [parse_status] returns the message made of that name between double
    quotes and the verdict of the table. *)
Theorem parse_status_known (W : World) (d : list (string * pyval))
    (name status verdict : string) :
  assoc "homework_name" d = Some (PyStr name) ->
  assoc "status" d = Some (PyStr status) ->
  assoc status HOMEWORK_VERDICTS = Some verdict ->
  parse_status W (PyDict d) =
  Ok ("Изменился статус проверки работы " ++ dquote ++ name ++ dquote
      ++ ". " ++ verdict).
Proof.
  intros Hname Hstatus Hverdict.
  unfold parse_status, get, contains, getitem.
  rewrite Hname, Hstatus. cbn [rbind is_None negb verdict_of].
  rewrite Hverdict. reflexivity.
Qed.

Lemma parse_status_known_witness :
  parse_status W_down
    (PyDict [ ("status", PyStr "rejected"); ("homework_name", PyStr "hw2") ]) =
  Ok ("Изменился статус проверки работы " ++ dquote ++ "hw2" ++ dquote
      ++ ". " ++ "Работа проверена: у ревьюера есть замечания.").
Proof.
  apply (parse_status_known W_down _ "hw2" "rejected"); reflexivity.
Defined.

Lemma assoc_verdict (status verdict : string) :
  assoc status HOMEWORK_VERDICTS = Some verdict ->
  status = "approved" \/ status = "reviewing" \/ status = "rejected".
Proof.
  unfold HOMEWORK_VERDICTS. cbn [assoc].
  destruct (String.eqb_spec status "approved"); [now left|].
  destruct (String.eqb_spec status "reviewing"); [now right; left|].
  destruct (String.eqb_spec status "rejected"); [now right; right|].
  discriminate.
Qed.

(** [parse_status] produces a message for nothing else: when it returns,
    its argument is a mapping with a [homework_name] that is not null and a
    [status] that is one of the strings approved, reviewing, rejected, and
    the message is the one of that name and of the verdict of that
    status. *)
Theorem parse_status_ok_inv (W : World) (homework : pyval)
    (message : string) :
  parse_status W homework = Ok message ->
  exists d name status verdict,
    homework = PyDict d /\
    assoc "homework_name" d = Some name /\
    name <> PyNone /\
    assoc "status" d = Some (PyStr status) /\
    (status = "approved" \/ status = "reviewing" \/ status = "rejected") /\
    assoc status HOMEWORK_VERDICTS = Some verdict /\
    message = "Изменился статус проверки работы " ++ dquote ++ str W name
              ++ dquote ++ ". " ++ verdict.
Proof.
  unfold parse_status.
  destruct homework as [| b | n | q | text | l | d]; try discriminate.
  unfold get, contains, getitem.
  destruct (assoc "homework_name" d) as [name|] eqn:Hname; [|discriminate].
  cbn [rbind].
  destruct (is_None name) eqn:Hnone; [discriminate|].
  destruct (assoc "status" d) as [status|] eqn:Hstatus; [|discriminate].
  cbn [negb rbind].
  destruct status as [| b | n | q | code | l | d'];
    cbn [verdict_of rbind]; try discriminate.
  destruct (assoc code HOMEWORK_VERDICTS) as [verdict|] eqn:Hverdict;
    [|discriminate].
  intros H. inversion H.
  exists d, name, code, verdict.
  repeat split; try assumption; try reflexivity.
  - intros ->. discriminate.
  - exact (assoc_verdict _ _ Hverdict).
Qed.

Lemma parse_status_ok_inv_witness :
  exists d name status verdict,
    PyDict [ ("homework_name", PyStr "hw1"); ("status", PyStr "approved") ]
      = PyDict d /\
    assoc "homework_name" d = Some name /\
    name <> PyNone /\
    assoc "status" d = Some (PyStr status) /\
    (status = "approved" \/ status = "reviewing" \/ status = "rejected") /\
    assoc status HOMEWORK_VERDICTS = Some verdict /\
    "Изменился статус проверки работы " ++ dquote ++ "hw1" ++ dquote
      ++ ". Работа проверена: ревьюеру всё понравилось. Ура!"
    = "Изменился статус проверки работы " ++ dquote ++ str W_down name
      ++ dquote ++ ". " ++ verdict.
Proof.
  apply (parse_status_ok_inv W_down
           (PyDict [ ("homework_name", PyStr "hw1");
                     ("status", PyStr "approved") ])).
  reflexivity.
Defined.

(** A first submission that is truthy and not a mapping (a string, a
    number, a list) has no [get]: [parse_status] raises an
    [AttributeError], and the cycle logs and reports that failure, sends
    nothing else and keeps the cursor. *)
Theorem non_mapping_submission_reported (W : World) (bot : Bot)
    (timestamp : Q) (s : state) (body first : pyval) (rest : list pyval) :
  well_formed body (first :: rest) ->
  truthy first = true ->
  isinstance_dict first = false ->
  serves W s timestamp body ->
  exists e logs,
    parse_status W first = Raise e /\
    exn_class_of e = AttributeError /\
    trace (snd (cycle W bot timestamp s)) =
      (trace s ++
       [Get ENDPOINT (HEADERS W) (py_round timestamp);
        Log ERROR (failure_message e);
        SendMessage (TELEGRAM_CHAT_ID W) (failure_message e)] ++
       logs ++ [Sleep 600])%list /\
    Forall (fun ev => is_log ev = true) logs /\
    (forall timestamp', fst (cycle W bot timestamp s) = Ok timestamp' ->
                        timestamp' = timestamp).
Proof.
  intros Hwf Htruthy Hdict Hserves.
  assert (Hparse : exists e, parse_status W first = Raise e /\
                             exn_class_of e = AttributeError).
  { unfold parse_status.
    destruct first; try discriminate; cbn; eexists; split; reflexivity. }
  destruct Hparse as (e & Hparse & Hclass).
  destruct (cycle_refused W bot timestamp s body e Hserves) as (logs & H).
  - rewrite (check_response_well_formed _ _ Hwf). cbn [rbind].
    now rewrite Htruthy.
  - now rewrite Hclass.
  - exists e, logs. split; [exact Hparse | split; [exact Hclass | exact H]].
Qed.

Lemma non_mapping_submission_reported_witness :
  exists e,
    parse_status (W_serving seven_first) (PyInt 7) = Raise e /\
    exn_class_of e = AttributeError.
Proof.
  destruct (non_mapping_submission_reported (W_serving seven_first) bot0
              (1000 # 1) initial seven_first (PyInt 7) [])
    as (e & logs & Hparse & Hclass & _).
  - eexists; eexists. repeat split; reflexivity.
  - reflexivity.
  - reflexivity.
  - eexists. repeat split; reflexivity.
  - exists e. split; [exact Hparse | exact Hclass].
Defined.

(** ** [send_message] *)

(** A call of [send_message] makes exactly one send, to
    [TELEGRAM_CHAT_ID], with the text it was given, and no GET or clock
    reading.  It returns normally when the send succeeds, with the DEBUG
    line of the bot's start in the log whatever the text, and when the send
    raises a [TelegramError]; any other exception leaves [send_message] as
    it is, with nothing logged. *)
Theorem send_message_one_attempt (W : World) (bot : Bot) (message : string)
    (s : state) :
  (exists logs,
     snd (send_message W bot message s) =
       advance s 0 0 1 (SendMessage (TELEGRAM_CHAT_ID W) message :: logs) /\
     (length logs <= 1)%nat /\
     Forall (fun ev => is_log ev = true) logs) /\
  (bot_send_message W (sends s) (TELEGRAM_CHAT_ID W) message = None ->
   send_message W bot message s =
   (Ok tt, advance s 0 0 1 [SendMessage (TELEGRAM_CHAT_ID W) message;
                            Log DEBUG "Telegram бот запущен."])) /\
  (forall e,
     bot_send_message W (sends s) (TELEGRAM_CHAT_ID W) message = Some e ->
     issubclass (exn_class_of e) TelegramError = false ->
     send_message W bot message s =
     (Raise e, advance s 0 0 1 [SendMessage (TELEGRAM_CHAT_ID W) message])).
Proof.
  rewrite send_message_eq. split; [|split].
  - destruct (bot_send_message W _ _ _) as [e|];
      [destruct (issubclass (exn_class_of e) TelegramError)|];
      cbn [snd]; eexists; (split; [reflexivity|]); cbn [length];
      (split; [lia | repeat constructor]).
  - now intros ->.
  - now intros e -> ->.
Qed.

Lemma send_message_one_attempt_witness :
  send_message W_broken_send bot0 "hello" initial =
  (Raise (new TypeError "chat_id"),
   advance initial 0 0 1 [SendMessage (PyStr "42") "hello"]).
Proof.
  apply (proj2 (proj2 (send_message_one_attempt W_broken_send bot0 "hello"
                         initial)) (new TypeError "chat_id"));
    reflexivity.
Defined.

(** ** One pass of the loop *)

Lemma attempt_advance (W : World) (bot : Bot) (timestamp : Q) (s : state) :
  exists r n evs,
    snd (attempt W bot timestamp s) = advance s r 1 n evs /\
    (n <= 1)%nat /\
    r = (if is_Ok (fst (attempt W bot timestamp s)) then 1 else 0)%nat /\
    (transport_only W -> n = 1%nat ->
     is_Ok (fst (attempt W bot timestamp s)) = true).
Proof.
  rewrite attempt_eq.
  destruct (get_api_answer_advance W timestamp s) as (logs & Hsnd & _).
  destruct (get_api_answer W timestamp s) as [[response | e] s1];
    cbn [snd] in Hsnd; subst s1;
    [| exists 0%nat, 0%nat; eexists; cbn [fst snd is_Ok];
       repeat split; (lia || discriminate)].
  destruct (check_response response) as [homework | e];
    [| exists 0%nat, 0%nat; eexists; cbn [fst snd is_Ok];
       repeat split; (lia || discriminate)].
  destruct (truthy homework).
  - destruct (parse_status W homework) as [message | e];
      [| exists 0%nat, 0%nat; eexists; cbn [fst snd is_Ok];
         repeat split; (lia || discriminate)].
    rewrite send_message_eq.
    destruct (bot_send_message W _ _ _) as [e|] eqn:Hsend;
      [destruct (issubclass (exn_class_of e) TelegramError) eqn:Hclass|];
      rewrite ?time_eq, !advance_advance; cbn [fst snd is_Ok].
    + exists 1%nat, 1%nat. eexists. repeat split; lia.
    + exists 0%nat, 1%nat. eexists. repeat split; try lia.
      intros Htransport _. rewrite (Htransport _ _ _ _ Hsend) in Hclass.
      discriminate.
    + exists 1%nat, 1%nat. eexists. repeat split; lia.
  - rewrite time_eq, !advance_advance. cbn [fst snd is_Ok].
    exists 1%nat, 0%nat. eexists. repeat split; (lia || discriminate).
Qed.

(** Whatever it meets, a pass of the loop makes exactly one GET, reads the
    clock once when its [try] suite completes and not at all otherwise,
    and makes at most two sends: the notification, and the report of a
    failure.  When sends fail by transport errors only, it makes at most
    one. *)
Theorem cycle_counters (W : World) (bot : Bot) (timestamp : Q) (s : state) :
  gets (snd (cycle W bot timestamp s)) = S (gets s) /\
  reads (snd (cycle W bot timestamp s)) =
    (if is_Ok (fst (attempt W bot timestamp s)) then S (reads s)
     else reads s) /\
  (sends s <= sends (snd (cycle W bot timestamp s)) <= 2 + sends s)%nat /\
  (transport_only W ->
   (sends (snd (cycle W bot timestamp s)) <= 1 + sends s)%nat).
Proof.
  rewrite cycle_eq.
  destruct (attempt_advance W bot timestamp s)
    as (r & n & evs & Hsnd & Hn & Hr & Hsent).
  destruct (attempt W bot timestamp s) as [[now | e] s1];
    cbn [fst snd is_Ok] in *; subst s1 r.
  - cbn. repeat split; lia.
  - assert (Hzero : transport_only W -> n = 0%nat).
    { intros Htransport. destruct n as [|[|n]]; try lia.
      specialize (Hsent Htransport eq_refl). discriminate. }
    destruct (issubclass (exn_class_of e) Exception).
    + rewrite send_message_eq.
      destruct (bot_send_message W _ _ _) as [e'|];
        [destruct (issubclass (exn_class_of e') TelegramError)|];
        cbn; (repeat split; try lia);
        try (intros Htransport; specialize (Hzero Htransport); lia).
    + cbn. repeat split; try lia;
        try (intros Htransport; specialize (Hzero Htransport); lia).
Qed.

(** The happy path in full: a fetched body that validates to a truthy
    submission which [parse_status] accepts, and a send that succeeds, make
    the pass one GET, one send of the message, the DEBUG line of the send,
    the cursor set to the clock, and the sleep. *)
Theorem cycle_notifies_status (W : World) (bot : Bot) (timestamp : Q)
    (s : state) (body homework : pyval) (message : string) :
  serves W s timestamp body ->
  check_response body = Ok homework ->
  truthy homework = true ->
  parse_status W homework = Ok message ->
  bot_send_message W (sends s) (TELEGRAM_CHAT_ID W) message = None ->
  cycle W bot timestamp s =
  (Ok (time_time W (reads s)),
   advance s 1 1 1
     [Get ENDPOINT (HEADERS W) (py_round timestamp);
      SendMessage (TELEGRAM_CHAT_ID W) message;
      Log DEBUG "Telegram бот запущен.";
      Sleep 600]).
Proof.
  intros Hserves Hcheck Htruthy Hparse Hsend.
  rewrite cycle_eq, attempt_eq, (get_api_answer_serves _ _ _ _ Hserves).
  rewrite Hcheck, Htruthy, Hparse, send_message_eq.
  cbn [advance sends Nat.add]. rewrite Hsend, time_eq.
  unfold advance. cbn. rewrite <- ?app_assoc. reflexivity.
Qed.

Lemma cycle_notifies_status_witness :
  cycle (W_serving hw1_approved) bot0 (1000 # 1) initial =
  (Ok (1000 # 1),
   advance initial 1 1 1
     [Get ENDPOINT "OAuth y0_token" 1000;
      SendMessage (PyStr "42")
        ("Изменился статус проверки работы " ++ dquote ++ "hw1" ++ dquote
         ++ ". Работа проверена: ревьюеру всё понравилось. Ура!");
      Log DEBUG "Telegram бот запущен.";
      Sleep 600]).
Proof.
  apply (cycle_notifies_status (W_serving hw1_approved) bot0 (1000 # 1)
           initial hw1_approved
           (PyDict [ ("homework_name", PyStr "hw1");
                     ("status", PyStr "approved") ])).
  - eexists. repeat split; reflexivity.
  - reflexivity.
  - reflexivity.
  - reflexivity.
  - reflexivity.
Defined.



(** A send of the notification that raises an exception other than a
    [TelegramError] is handled as a failure of the pass: the pass logs and
    sends the report of that exception, a second send, and when it returns
    to the loop the cursor is the one it started with. *)
Theorem notification_crash_reported (W : World) (bot : Bot)
    (timestamp : Q) (s : state) (body homework : pyval) (message : string)
    (e : exn) :
  serves W s timestamp body ->
  check_response body = Ok homework ->
  truthy homework = true ->
  parse_status W homework = Ok message ->
  bot_send_message W (sends s) (TELEGRAM_CHAT_ID W) message = Some e ->
  issubclass (exn_class_of e) TelegramError = false ->
  issubclass (exn_class_of e) Exception = true ->
  exists logs,
    snd (cycle W bot timestamp s) =
      advance s 0 1 2
        ([Get ENDPOINT (HEADERS W) (py_round timestamp);
          SendMessage (TELEGRAM_CHAT_ID W) message;
          Log ERROR (failure_message e);
          SendMessage (TELEGRAM_CHAT_ID W) (failure_message e)]
         ++ logs ++ [Sleep 600]) /\
    Forall (fun ev => is_log ev = true) logs /\
    (forall timestamp', fst (cycle W bot timestamp s) = Ok timestamp' ->
                        timestamp' = timestamp).
Proof.
  intros Hserves Hcheck Htruthy Hparse Hsend Hclass Hexc.
  rewrite cycle_eq, attempt_eq, (get_api_answer_serves _ _ _ _ Hserves).
  rewrite Hcheck, Htruthy, Hparse, send_message_eq.
  cbn [advance sends Nat.add]. rewrite Hsend, Hclass, Hexc.
  rewrite send_message_eq.
  destruct (bot_send_message W _ _ (failure_message e)) as [e'|];
    [destruct (issubclass (exn_class_of e') TelegramError)|];
    cbn [fst snd].
  - eexists [_]. split; [|split].
    + unfold advance. cbn. rewrite <- ?app_assoc. reflexivity.
    + repeat constructor.
    + intros ? H. now inversion H.
  - exists []. split; [|split].
    + unfold advance. cbn. rewrite <- ?app_assoc. reflexivity.
    + constructor.
    + discriminate.
  - eexists [_]. split; [|split].
    + unfold advance. cbn. rewrite <- ?app_assoc. reflexivity.
    + repeat constructor.
    + intros ? H. now inversion H.
Qed.

Lemma notification_crash_reported_witness :
  sends (snd (cycle W_broken_send bot0 (1000 # 1) initial)) = 2%nat.
Proof.
  destruct (notification_crash_reported W_broken_send bot0 (1000 # 1) initial
              hw1_approved
              (PyDict [ ("homework_name", PyStr "hw1");
                        ("status", PyStr "approved") ])
              ("Изменился статус проверки работы " ++ dquote ++ "hw1" ++ dquote
               ++ ". Работа проверена: ревьюеру всё понравилось. Ура!")
              (new TypeError "chat_id"))
    as (logs & Hsnd & _).
  - eexists. repeat split; reflexivity.
  - reflexivity.
  - reflexivity.
  - reflexivity.
  - reflexivity.
  - reflexivity.
  - reflexivity.
  - rewrite Hsnd. reflexivity.
Defined.

(** *** What a pass sends *)


Lemma check_response_raises_exception (body : pyval) (e : exn) :
  check_response body = Raise e ->
  issubclass (exn_class_of e) Exception = true.
Proof.
  unfold check_response.
  destruct body as [| b | n | q | text | l | d]; cbn;
    try (intros H; inversion H; reflexivity).
  destruct (assoc "homeworks" d) as [homeworks|]; cbn;
    [| intros H; inversion H; reflexivity].
  destruct (assoc "current_date" d) as [current_date|]; cbn;
    [| intros H; inversion H; reflexivity].
  destruct homeworks as [| b | n | q | text | l | d']; cbn;
    try (intros H; inversion H; reflexivity).
  destruct l; cbn; discriminate.
Qed.

Lemma parse_status_raises_exception (W : World) (homework : pyval) (e : exn) :
  parse_status W homework = Raise e ->
  issubclass (exn_class_of e) Exception = true.
Proof.
  unfold parse_status.
  destruct homework as [| b | n | q | text | l | d]; cbn [get rbind];
    try (intros H; inversion H; reflexivity).
  unfold contains, getitem.
  destruct (assoc "homework_name" d) as [name|]; cbn [rbind is_None];
    [| intros H; inversion H; reflexivity].
  destruct (is_None name); [intros H; inversion H; reflexivity|].
  destruct (assoc "status" d) as [status|]; cbn [negb rbind];
    [| intros H; inversion H; reflexivity].
  destruct status as [| b | n | q | code | l | d'];
    cbn [verdict_of rbind type_name];
    try (intros H; inversion H; reflexivity).
  destruct (assoc code HOMEWORK_VERDICTS); [discriminate|].
  intros H; inversion H; reflexivity.
Qed.

(** With an HTTP library that raises exceptions only, whatever the fetch,
    the validation or the interpretation raises is caught by the
    [except Exception] of the loop. *)
Lemma steps_raise_exception (W : World) (timestamp : Q) (s : state) (e : exn) :
  http_raises_exceptions W ->
  steps W timestamp s = Raise e ->
  issubclass (exn_class_of e) Exception = true.
Proof.
  intros [Hget Hjson]. unfold steps. rewrite get_api_answer_eq. cbv zeta.
  destruct (requests_get W (gets s) (py_round timestamp)) as [r | e0] eqn:Hreq.
  - destruct (status_code r =? 200);
      [| cbn; intros H; inversion H; reflexivity].
    destruct (json r) as [body | e0] eqn:Hbody.
    + cbn [fst rbind].
      destruct (check_response body) as [homework | e1] eqn:Hcheck;
        cbn [rbind].
      * destruct (truthy homework); [|discriminate].
        destruct (parse_status W homework) as [message | e1] eqn:Hparse;
          cbn [rbind]; [discriminate|].
        intros H; inversion H; subst.
        exact (parse_status_raises_exception _ _ _ Hparse).
      * intros H; inversion H; subst.
        exact (check_response_raises_exception _ _ Hcheck).
    + destruct (issubclass (exn_class_of e0) JSONDecodeError);
        cbn; intros H; inversion H; subst;
        [reflexivity | exact (Hjson _ _ _ _ Hreq Hbody)].
  - destruct (issubclass (exn_class_of e0) RequestException);
      cbn; intros H; inversion H; subst;
      [reflexivity | exact (Hget _ _ _ Hreq)].
Qed.


Lemma W_down_http_raises_exceptions : http_raises_exceptions W_down.
Proof.
  split.
  - intros k from_date e H. inversion H. reflexivity.
  - intros k from_date r e H. discriminate H.
Defined.


(** ** The loop *)

(** The report of a failure is sent outside any [try]: when fetch,
    validation or interpretation raised and the send of the report raises
    something that is not a [TelegramError], that exception leaves the
    pass, after the sleep of the [finally] clause, and ends the loop: no
    further pass is made. *)
Theorem failure_report_escapes (W : World) (bot : Bot) (timestamp : Q)
    (s : state) (e e' : exn) (n : nat) :
  steps W timestamp s = Raise e ->
  issubclass (exn_class_of e) Exception = true ->
  bot_send_message W (sends s) (TELEGRAM_CHAT_ID W) (failure_message e)
    = Some e' ->
  issubclass (exn_class_of e') TelegramError = false ->
  fst (cycle W bot timestamp s) = Raise e' /\
  (exists evs,
     trace (snd (cycle W bot timestamp s)) =
       (trace s ++ evs ++
        [SendMessage (TELEGRAM_CHAT_ID W) (failure_message e); Sleep 600])%list) /\
  poll W (S n) bot timestamp s =
    (Raise e', snd (cycle W bot timestamp s)).
Proof.
  intros Hsteps Hexc Hsend Hclass.
  assert (Hcycle : exists evs,
            cycle W bot timestamp s =
            (Raise e',
             advance s 0 1 1
               (evs ++ [SendMessage (TELEGRAM_CHAT_ID W) (failure_message e);
                        Sleep 600]))).
  { rewrite cycle_eq.
    pose proof (attempt_by_steps W bot timestamp s) as Hattempt.
    destruct (get_api_answer_advance W timestamp s)
      as (logs & Hsnd & _).
    rewrite Hsteps, Hsnd in Hattempt.
    rewrite Hattempt, Hexc, send_message_eq.
    cbn [advance sends Nat.add]. rewrite Hsend, Hclass.
    rewrite !advance_advance. cbn [Nat.add].
    eexists (_ :: logs ++ [_])%list. f_equal. f_equal.
    cbn. rewrite <- !app_assoc. reflexivity. }
  destruct Hcycle as (evs & Hcycle).
  split; [now rewrite Hcycle | split].
  - exists evs. now rewrite Hcycle.
  - cbn [poll]. unfold bind. now rewrite Hcycle.
Qed.

Lemma failure_report_escapes_witness :
  poll W_cut_off 5 bot0 (1000 # 1) initial =
  (Raise (new TypeError "chat_id"),
   snd (cycle W_cut_off bot0 (1000 # 1) initial)).
Proof.
  apply (failure_report_escapes W_cut_off bot0 (1000 # 1) initial
           (new Exception
              ("Ошибка направления запроса к API " ++ dquote
               ++ "Яндекс.Домашка" ++ dquote ++ ": Connection refused."))
           (new TypeError "chat_id") 4);
    reflexivity.
Defined.

Lemma cycle_gets (W : World) (bot : Bot) (timestamp : Q) (s : state) :
  gets (snd (cycle W bot timestamp s)) = S (gets s).
Proof.
  rewrite cycle_eq.
  destruct (attempt_advance W bot timestamp s)
    as (r & n & evs & Hsnd & _).
  destruct (attempt W bot timestamp s) as [[now | e] s1];
    cbn [snd] in *; subst s1; [reflexivity|].
  destruct (issubclass (exn_class_of e) Exception); [|reflexivity].
  rewrite send_message_eq.
  destruct (bot_send_message W _ _ _) as [e'|];
    [destruct (issubclass (exn_class_of e') TelegramError)|]; reflexivity.
Qed.

Lemma cycle_returns (W : World) (bot : Bot) (timestamp : Q) (s : state) :
  transport_only W ->
  http_raises_exceptions W ->
  is_Ok (fst (cycle W bot timestamp s)) = true.
Proof.
  intros Htransport Hhttp. rewrite cycle_eq.
  pose proof (attempt_by_steps W bot timestamp s) as Hattempt.
  pose proof (steps_raise_exception W timestamp s) as Hexc.
  destruct (steps W timestamp s) as [[message|] | e]; rewrite Hattempt.
  - unfold bind.
    pose proof (send_message_returns W bot message
                  (snd (get_api_answer W timestamp s)) Htransport) as Hsend.
    destruct (send_message W bot message _) as [[[] | e] s2];
      cbn [fst] in Hsend; [|discriminate].
    now rewrite time_eq.
  - now rewrite time_eq.
  - rewrite (Hexc e Hhttp eq_refl).
    pose proof (send_message_returns W bot (failure_message e)
                  (advance (snd (get_api_answer W timestamp s)) 0 0 0
                     [Log ERROR (failure_message e)]) Htransport) as Hsend.
    destruct (send_message W bot (failure_message e) _) as [[[] | e'] s2];
      cbn [fst] in Hsend; [reflexivity | discriminate].
Qed.

(** When sends fail by transport errors only and the HTTP library raises
    exceptions only, nothing ends the loop: each of the first [n] passes
    returns to it, whatever was fetched, and [n] GETs are made. *)
Theorem loop_survives (W : World) (bot : Bot) (n : nat) (timestamp : Q)
    (s : state) :
  transport_only W ->
  http_raises_exceptions W ->
  is_Ok (fst (poll W n bot timestamp s)) = true /\
  gets (snd (poll W n bot timestamp s)) = (n + gets s)%nat.
Proof.
  intros Htransport Hhttp. revert timestamp s.
  induction n as [|n IH]; intros timestamp s; [now split|].
  cbn [poll]. unfold bind.
  pose proof (cycle_returns W bot timestamp s Htransport Hhttp) as Hok.
  pose proof (cycle_gets W bot timestamp s) as Hgets.
  destruct (cycle W bot timestamp s) as [[timestamp' | e] s1];
    cbn [fst snd is_Ok] in *; [|discriminate].
  destruct (IH timestamp' s1) as [Hok' Hgets'].
  split; [exact Hok' | rewrite Hgets', Hgets; lia].
Qed.

Lemma loop_survives_witness :
  is_Ok (fst (poll W_down 3 bot0 (1000 # 1) initial)) = true /\
  gets (snd (poll W_down 3 bot0 (1000 # 1) initial)) = (3 + gets initial)%nat.
Proof.
  apply (loop_survives W_down bot0 3 (1000 # 1) initial).
  - intros k chat_id text e H. discriminate H.
  - exact W_down_http_raises_exceptions.
Defined.

(** While the API has nothing new the loop sends nothing: after [n]
    passes the cursor is the last reading of the clock, [n] GETs and [n]
    clock readings were made and no send, and the [from_date] of each GET
    but the first is the rounded clock reading that ended the pass
    before. *)
Theorem idle_loop (W : World) (bot : Bot) (n : nat) (timestamp : Q)
    (s : state) :
  idle W ->
  exists evs,
    poll W n bot timestamp s =
      (Ok (match n with
           | O => timestamp
           | S k => time_time W (k + reads s)
           end),
       advance s n n 0 evs) /\
    sent_texts evs = [] /\
    from_dates evs =
      match n with
      | O => []
      | S k => py_round timestamp
               :: map (fun i => py_round (time_time W i)) (seq (reads s) k)
      end.
Proof.
  intros Hidle. revert timestamp s.
  induction n as [|n IH]; intros timestamp s.
  - exists []. cbn [poll]. unfold ret. rewrite advance_0. now repeat split.
  - destruct (Hidle s timestamp) as (body & homework & Hs & Hcheck & Hfalsy).
    cbn [poll]. unfold bind.
    rewrite (cycle_no_submission W bot timestamp s body homework
               Hs Hcheck Hfalsy).
    unfold no_submission.
    destruct (IH (time_time W (reads s))
                 (advance s 1 1 0
                    [Get ENDPOINT (HEADERS W) (py_round timestamp);
                     Log DEBUG "Статус проверки работы не изменён.";
                     Sleep 600]))
      as (evs & Hpoll & Hsent & Hdates).
    rewrite Hpoll, advance_advance.
    eexists. split; [|split].
    + f_equal.
      * destruct n as [|k]; [reflexivity|].
        cbn [advance reads]. do 2 f_equal. lia.
      * unfold advance. f_equal; lia.
    + unfold sent_texts in *. rewrite flat_map_app, Hsent. reflexivity.
    + unfold from_dates in *. rewrite flat_map_app, Hdates.
      destruct n as [|k]; reflexivity.
Qed.

Lemma W_idle_idle : idle W_idle.
Proof.
  intros s timestamp. eexists; exists PyNone. split; [|split].
  - eexists. repeat split; reflexivity.
  - reflexivity.
  - reflexivity.
Defined.

Lemma idle_loop_witness :
  exists evs,
    poll W_idle 3 bot0 (1000 # 1) initial =
      (Ok (time_time W_idle (2 + reads initial)), advance initial 3 3 0 evs) /\
    sent_texts evs = [] /\
    from_dates evs =
      py_round (1000 # 1)
      :: map (fun i => py_round (time_time W_idle i)) (seq (reads initial) 2).
Proof.
  exact (idle_loop W_idle bot0 3 (1000 # 1) initial W_idle_idle).
Defined.

Lemma cycle_outage (W : World) (bot : Bot) (timestamp : Q) (s : state) :
  outage W ->
  transport_only W ->
  exists evs,
    cycle W bot timestamp s = (Ok timestamp, advance s 0 1 1 evs) /\
    from_dates evs = [py_round timestamp] /\
    length (sent_texts evs) = 1%nat.
Proof.
  intros Hout Htransport.
  destruct (Hout (gets s) (py_round timestamp)) as (e & Hget & Hclass).
  rewrite cycle_eq, attempt_eq, get_api_answer_eq. cbv zeta.
  rewrite Hget, Hclass. cbn [issubclass exn_class_of new exn_class_eqb orb].
  rewrite send_message_eq.
  destruct (bot_send_message W _ _ _) as [e'|] eqn:Hsend;
    [rewrite (Htransport _ _ _ _ Hsend)|];
    rewrite !advance_advance; cbn [Nat.add];
    eexists; (split; [reflexivity | split; reflexivity]).
Qed.

(** While the API cannot be reached, and sends fail by transport errors
    only, the cursor never moves and the clock is not read: each of [n]
    passes asks for the same [from_date] and sends one report of the
    failure, one every retry period. *)
Theorem outage_loop (W : World) (bot : Bot) (n : nat) (timestamp : Q)
    (s : state) :
  outage W ->
  transport_only W ->
  exists evs,
    poll W n bot timestamp s = (Ok timestamp, advance s 0 n n evs) /\
    from_dates evs = repeat (py_round timestamp) n /\
    length (sent_texts evs) = n.
Proof.
  intros Hout Htransport. revert s.
  induction n as [|n IH]; intros s.
  - exists []. cbn [poll]. unfold ret. rewrite advance_0. now repeat split.
  - destruct (cycle_outage W bot timestamp s Hout Htransport)
      as (evs1 & Hcycle & Hdates1 & Hsent1).
    cbn [poll]. unfold bind. rewrite Hcycle.
    destruct (IH (advance s 0 1 1 evs1)) as (evs & Hpoll & Hdates & Hsent).
    rewrite Hpoll, advance_advance.
    eexists. split; [|split].
    + f_equal. unfold advance. f_equal; lia.
    + unfold from_dates in *. rewrite flat_map_app, Hdates1, Hdates.
      reflexivity.
    + unfold sent_texts in *. rewrite flat_map_app, length_app, Hsent1, Hsent.
      reflexivity.
Qed.

Lemma W_down_outage : outage W_down.
Proof.
  intros k from_date. eexists. split; reflexivity.
Defined.

Lemma outage_loop_witness :
  exists evs,
    poll W_down 3 bot0 (1000 # 1) initial =
      (Ok (1000 # 1), advance initial 0 3 3 evs) /\
    from_dates evs = repeat (py_round (1000 # 1)) 3 /\
    length (sent_texts evs) = 3%nat.
Proof.
  apply (outage_loop W_down bot0 3 (1000 # 1) initial W_down_outage).
  intros k chat_id text e H. discriminate H.
Defined.

(** ** [main] *)

(** When the startup check passes and [telegram.Bot] raises, [main] ends
    with that exception before anything is sent, asked or logged. *)
Theorem main_bot_failure (W : World) (n : nat) (s : state) (e : exn) :
  check_tokens W s = (Ok true, s) ->
  telegram_Bot W (TELEGRAM_TOKEN W) = Some e ->
  main W n s = (Raise e, s).
Proof.
  intros Hcheck Hbot. unfold main, bind, new_Bot.
  rewrite Hcheck. cbn [negb]. now rewrite Hbot.
Qed.

Lemma main_bot_failure_witness :
  main W_bad_token 3 initial = (Raise (new Exception "Invalid token"), initial).
Proof.
  apply (main_bot_failure W_bad_token 3 initial); reflexivity.
Defined.



(** The startup check lets a missing API token through when the bot token
    is there: every GET then carries the header [OAuth None]. *)
Theorem missing_api_token_still_polls (W : World) :
  os_getenv W "PRACTICUM_TOKEN" = None ->
  present W "TELEGRAM_TOKEN" ->
  (forall s, check_tokens W s = (Ok true, s)) /\
  (forall timestamp s,
     exists logs,
       trace (snd (get_api_answer W timestamp s)) =
       (trace s ++ Get ENDPOINT "OAuth None" (py_round timestamp) :: logs)%list).
Proof.
  intros Hapi Hbot. split.
  - intros s. unfold check_tokens, any, PRACTICUM_TOKEN, TELEGRAM_TOKEN.
    cbn [existsb]. rewrite (present_truthy _ _ Hbot).
    rewrite orb_true_r. reflexivity.
  - intros timestamp s.
    destruct (get_api_answer_trace W timestamp s) as (logs & Htrace & _).
    exists logs. rewrite Htrace.
    unfold HEADERS, PRACTICUM_TOKEN, getenv. now rewrite Hapi.
Qed.

Lemma missing_api_token_still_polls_witness :
  check_tokens W_no_api_token initial = (Ok true, initial).
Proof.
  refine (proj1 (missing_api_token_still_polls W_no_api_token eq_refl _)
                initial).
  exists "123456:ABC". split; [reflexivity | discriminate].
Defined.
